(** * Permission vocabulary and component lookup contract

    A verification development for two leaf modules of the repository:

    - the permission vocabulary: [PermissionAttributes], [PermissionBase],
      [BasicPermission], [ResourcePermission], [PermissionAuthorizer],
      [PermissionRuleDefinition], [createPermissionRuleDefinition] and
      [Condition];
    - [ComponentsApi.ts]: [componentsApiRef].

    Run-time code is embedded as functions over a store of JavaScript
    objects. The type declarations are embedded as terms of a small universe
    of TypeScript types, with the values each type holds. *)

From stdpp Require Import gmap strings list fin_maps.

#[local] Set Warnings "-register-all".

Open Scope string_scope.

(** * Definitions *)

(** ** JavaScript values and the object store *)

Module JS.

(** An object lives at a location of the store; two objects are the same
    object ([===]) when their locations are equal. *)
Definition loc := positive.

Inductive value : Type :=
| VUndefined
| VNull
| VBool (b : bool)
| VString (s : string)
| VObject (l : loc).

#[global] Instance value_eq_dec : EqDecision value.
Proof. solve_decision. Defined.

#[global] Instance value_inhabited : Inhabited value := populate VUndefined.

(** The own data properties of a plain object, by key. Accessors, proxies
    and inherited properties are not part of the model. *)
Abbreviation props := (gmap string value).

(** The store: every allocated object with its properties. *)
Abbreviation heap := (gmap loc props).

Inductive error : Type :=
| TypeError.

(** A computation reads and extends the store and either returns or
    throws. *)
Inductive outcome (A : Type) : Type :=
| Returns (a : A) (h : heap)
| Throws (e : error).
Arguments Returns {A} a h.
Arguments Throws {A} e.

Definition M (A : Type) : Type := heap → outcome A.

Definition ret {A} (a : A) : M A := fun h => Returns a h.

Definition bind {A B} (m : M A) (k : A → M B) : M B :=
  fun h =>
    match m h with
    | Returns a h' => k a h'
    | Throws e => Throws e
    end.

#[global] Instance M_ret : MRet M := @ret.
#[global] Instance M_bind : MBind M := fun A B k m => bind m k.

(** [o.k] on a plain object: the own property, [undefined] when there is
    none. *)
Definition getOwn (o : props) (k : string) : value :=
  default VUndefined (o !! k).

(** [v.k], which is also the read that a destructuring pattern [{k}] does
    on [v]. [undefined] and [null] have no properties: the read throws a
    TypeError. A boolean or a string has none of the properties that this
    module reads, so the read gives [undefined]. *)
Definition getProp (v : value) (k : string) : M value :=
  fun h =>
    match v with
    | VUndefined | VNull => Throws TypeError
    | VBool _ | VString _ => Returns VUndefined h
    | VObject l => Returns (getOwn (default ∅ (h !! l)) k) h
    end.

(** The properties of an object literal [{k1: v1, ..., kn: vn}], defined
    from left to right. *)
Definition literal (kvs : list (string * value)) : props :=
  foldl (fun o kv => <[kv.1 := kv.2]> o) ∅ kvs.

(** Evaluating an object literal allocates a new object, at a location
    that is not in the store yet. *)
Definition newObject (kvs : list (string * value)) : M value :=
  fun h =>
    let l := fresh (dom h) in
    Returns (VObject l) (<[l := literal kvs]> h).

End JS.

Import JS.

(** ** [createPermissionRuleDefinition] *)

(** The arrow function destructures its argument into [name],
    [description], [resourceType] and [paramsSchema], and returns the
    object literal [{name, description, resourceType, paramsSchema}]. *)
Definition createPermissionRuleDefinition (arg : value) : M value :=
  name ← getProp arg "name";
  description ← getProp arg "description";
  resourceType ← getProp arg "resourceType";
  paramsSchema ← getProp arg "paramsSchema";
  newObject [("name", name);
             ("description", description);
             ("resourceType", resourceType);
             ("paramsSchema", paramsSchema)].

(** The properties of the object that the function builds from the
    properties [o] of its argument, and their keys. *)
Definition ruleProps (o : props) : props :=
  {[ "name" := getOwn o "name";
     "description" := getOwn o "description";
     "resourceType" := getOwn o "resourceType";
     "paramsSchema" := getOwn o "paramsSchema" ]}.

Definition ruleKeys : gset string :=
  {[ "name"; "description"; "resourceType"; "paramsSchema" ]}.

(** ** The TypeScript types of the permission vocabulary *)

Module TS.

(** The types that the declarations are built from. [TyRef] is a type
    imported from another module ([PolicyDecision], [z.ZodSchema<T>],
    [PermissionCondition<R, P>]), applied to its arguments. *)
Inductive ty : Type :=
| TyUndefined
| TyString
| TyLit (s : string)
| TyNever
| TyUnknown
| TyUnion (a b : ty)
| TyInter (a b : ty)
| TyObject (members : list member)
| TyFun (params : list ty) (result : ty)
| TyRef (name : string) (args : list ty)
with member : Type :=
| Member (key : string) (optional : bool) (type : ty).

Definition key (m : member) : string := let 'Member k _ _ := m in k.
Definition optional (m : member) : bool := let 'Member _ o _ := m in o.
Definition type (m : member) : ty := let 'Member _ _ t := m in t.

Section Typing.

(** Which values an imported type holds is decided outside this module. *)
Variable ext : string → list ty → value → bool.

(** [has_type h t v]: the value [v], in store [h], is a value of type [t],
    under [strictNullChecks]. Object types are open: an object belongs to
    [{k1: T1; ...}] when each declared member is there with a value of its
    type, whatever other properties the object has, which is why
    [const x = {..., extra: 1}; const y: {k1: T1} = x] is accepted. An
    optional member may be missing or [undefined]. The empty object type
    [{}] holds every value but [undefined] and [null]. The store holds no
    function values. *)
Fixpoint has_type (h : heap) (t : ty) (v : value) {struct t} : bool :=
  match t with
  | TyUndefined => bool_decide (v = VUndefined)
  | TyString => match v with VString _ => true | _ => false end
  | TyLit s => bool_decide (v = VString s)
  | TyNever => false
  | TyUnknown => true
  | TyUnion a b => has_type h a v || has_type h b v
  | TyInter a b => has_type h a v && has_type h b v
  | TyObject ms =>
      match v with
      | VUndefined | VNull => false
      | VBool _ | VString _ => match ms with [] => true | _ => false end
      | VObject l =>
          match h !! l with
          | None => false
          | Some o =>
              (fix members_ok (ms : list member) : bool :=
                 match ms with
                 | [] => true
                 | Member k opt mt :: ms' =>
                     match o !! k with
                     | Some x =>
                         has_type h mt x || (opt && bool_decide (x = VUndefined))
                     | None => opt
                     end && members_ok ms'
                 end) ms
          end
      end
  | TyFun _ _ => false
  | TyRef name args => ext name args v
  end.

(** One member of an object type against the properties of an object. *)
Definition member_ok (h : heap) (o : props) (m : member) : bool :=
  match o !! key m with
  | Some x => has_type h (type m) x || (optional m && bool_decide (x = VUndefined))
  | None => optional m
  end.

(** The check [undefined extends T] of a conditional type: whether the
    type [undefined] is assignable to [T]. *)
Fixpoint undefined_extends (t : ty) : bool :=
  match t with
  | TyUndefined | TyUnknown => true
  | TyUnion a b => undefined_extends a || undefined_extends b
  | TyInter a b => undefined_extends a && undefined_extends b
  | TyRef name args => ext name args VUndefined
  | TyString | TyLit _ | TyNever | TyObject _ | TyFun _ _ => false
  end.

End Typing.

(** The members that an object literal may specify when it is checked
    against [t]: those that [t] declares, for an intersection or a union
    those that a constituent declares. *)
Fixpoint known_members (t : ty) : list string :=
  match t with
  | TyObject ms => map key ms
  | TyInter a b | TyUnion a b => known_members a ++ known_members b
  | _ => []
  end.

(** An object literal, allocated at [l], checked against [t]: it must have
    type [t] and, when [t] declares members, specify no other (the excess
    property check, which applies to literals only). *)
Definition literal_assignable (ext : string → list ty → value → bool)
    (h : heap) (t : ty) (l : loc) : bool :=
  has_type ext h t (VObject l) &&
  match known_members t with
  | [] => true
  | ks => bool_decide (dom (default ∅ (h !! l)) ⊆ list_to_set ks)
  end.

(** [T extends string], on the types of this universe. *)
Fixpoint extends_string (t : ty) : bool :=
  match t with
  | TyString | TyLit _ | TyNever => true
  | TyUnion a b => extends_string a && extends_string b
  | TyInter a b => extends_string a || extends_string b
  | _ => false
  end.

Fixpoint find_member (k : string) (ms : list member) : option member :=
  match ms with
  | [] => None
  | m :: ms' => if bool_decide (key m = k) then Some m else find_member k ms'
  end.

End TS.

Import TS.

(** Imported by the module, declared elsewhere. *)
Definition PolicyDecision : ty := TyRef "PolicyDecision" [].
Definition ZodSchema (T : ty) : ty := TyRef "ZodSchema" [T].
Definition PermissionCondition (TResourceType TParams : ty) : ty :=
  TyRef "PermissionCondition" [TResourceType; TParams].

(** [type PermissionAttributes = { action?: 'create' | 'read' | 'update' | 'delete' }] *)
Definition PermissionAttributes : ty :=
  TyObject
    [Member "action" true
       (TyUnion (TyUnion (TyUnion (TyLit "create") (TyLit "read")) (TyLit "update"))
          (TyLit "delete"))].

(** [type PermissionBase<TType, TFields> =
      { name; attributes; defaultDecision? } & { type: TType } & TFields] *)
Definition PermissionBase (TType TFields : ty) : ty :=
  TyInter
    (TyInter
       (TyObject
          [Member "name" false TyString;
           Member "attributes" false PermissionAttributes;
           Member "defaultDecision" true PolicyDecision])
       (TyObject [Member "type" false TType]))
    TFields.

(** [type BasicPermission = PermissionBase<'basic', {}>] *)
Definition BasicPermission : ty :=
  PermissionBase (TyLit "basic") (TyObject []).

(** [type ResourcePermission<TResourceType extends string = string> =
      PermissionBase<'resource', { resourceType: TResourceType }>] *)
Definition ResourcePermission (TResourceType : ty) : ty :=
  PermissionBase (TyLit "resource")
    (TyObject [Member "resourceType" false TResourceType]).

(** [type Permission = BasicPermission | ResourcePermission] *)
Definition Permission : ty :=
  TyUnion BasicPermission (ResourcePermission TyString).

(** [type PermissionRuleDefinition<TResourceType, TParams> =
      { name; description; resourceType; paramsSchema? }] *)
Definition PermissionRuleDefinition (TResourceType TParams : ty) : ty :=
  TyObject
    [Member "name" false TyString;
     Member "description" false TyString;
     Member "resourceType" false TResourceType;
     Member "paramsSchema" true (ZodSchema TParams)].

(** [TRule extends PermissionRuleDefinition<infer TResourceType, infer TParams>]:
    [TRule] is an object type that declares [name] and [description] as
    strings, [resourceType] with a type that extends [string], which is
    inferred as [TResourceType], and [paramsSchema] as a [z.ZodSchema<_>],
    whose argument is inferred as [TParams]. Every instance of
    [PermissionRuleDefinition] is recognised; an object type that leaves
    [paramsSchema] out, for which the compiler would have to pick [TParams]
    without a candidate, is not. *)
Definition infer_PermissionRuleDefinition (TRule : ty) : option (ty * ty) :=
  match TRule with
  | TyObject ms =>
      n ← find_member "name" ms;
      d ← find_member "description" ms;
      r ← find_member "resourceType" ms;
      p ← find_member "paramsSchema" ms;
      match type p with
      | TyRef z [TParams] =>
          if negb (optional n) && extends_string (type n) &&
             negb (optional d) && extends_string (type d) &&
             negb (optional r) && extends_string (type r) &&
             bool_decide (z = "ZodSchema")
          then Some (type r, TParams)
          else None
      | _ => None
      end
  | _ => None
  end.

(** [type Condition<TRule> =
      TRule extends PermissionRuleDefinition<infer TResourceType, infer TParams>
        ? undefined extends TParams
          ? () => PermissionCondition<TResourceType, TParams>
          : (params: TParams) => PermissionCondition<TResourceType, TParams>
        : never]
    The type that is tested is the type parameter itself, so the
    conditional type distributes over a union. *)
Fixpoint Condition (ext : string → list ty → value → bool) (TRule : ty) : ty :=
  match TRule with
  | TyUnion a b => TyUnion (Condition ext a) (Condition ext b)
  | _ =>
      match infer_PermissionRuleDefinition TRule with
      | Some (TResourceType, TParams) =>
          if undefined_extends ext TParams
          then TyFun [] (PermissionCondition TResourceType TParams)
          else TyFun [TParams] (PermissionCondition TResourceType TParams)
      | None => TyNever
      end
  end.

(** ** [PermissionAuthorizer] *)

(** How a promise settles. *)
Inductive Promise (A : Type) : Type :=
| Resolves (a : A)
| Rejects (reason : string).
Arguments Resolves {A} a.
Arguments Rejects {A} reason.

(** [type AuthorizeRequestOptions = { token?: string }] *)
Record AuthorizeRequestOptions : Type := { token : option string }.

Section PermissionAuthorizer.

(** Imported from ['./api']. *)
Variables EvaluatePermissionRequest EvaluatePermissionResponse : Type.

(** [interface PermissionAuthorizer { authorize(requests, options?) }] *)
Record PermissionAuthorizer : Type := {
  authorize :
    list EvaluatePermissionRequest → option AuthorizeRequestOptions →
    Promise (list EvaluatePermissionResponse)
}.

(** Modelled from the spec: the backend behind an implementation of
    [PermissionAuthorizer]. It decides one request at a time, or fails. *)
Variable backend :
  option AuthorizeRequestOptions → EvaluatePermissionRequest →
  Promise EvaluatePermissionResponse.

(** Modelled from the spec: an implementation of [authorize]; the module
    declares the interface and no implementation of it. The batch resolves
    to the decisions of the backend in the order of the requests, and the
    whole call fails when the backend fails on one of them. *)
Fixpoint authorizeBatch (options : option AuthorizeRequestOptions)
    (requests : list EvaluatePermissionRequest)
    : Promise (list EvaluatePermissionResponse) :=
  match requests with
  | [] => Resolves []
  | request :: rest =>
      match backend options request with
      | Rejects reason => Rejects reason
      | Resolves decision =>
          match authorizeBatch options rest with
          | Rejects reason => Rejects reason
          | Resolves decisions => Resolves (decision :: decisions)
          end
      end
  end.

(** Modelled from the spec: the authorizer over a backend, whose
    [authorize] is [authorizeBatch]. *)
Definition batchAuthorizer : PermissionAuthorizer :=
  {| authorize := fun requests options => authorizeBatch options requests |}.

End PermissionAuthorizer.

Arguments authorize {_ _} _ _ _.
Arguments batchAuthorizer {_ _} _.
Arguments authorizeBatch {_ _} _ _ _.

(** ** [ComponentsApi.ts] *)

Section ComponentsApi.

(** [createApiRef] is imported from ['../system']: it takes the
    configuration object and gives the reference. *)
Variable ApiRef : Type.
Variable createApiRef : props → ApiRef.

(** [export const componentsApiRef = createApiRef<ComponentsApi>({ id: 'core.components' })] *)
Definition componentsApiRef : ApiRef :=
  createApiRef (literal [("id", VString "core.components")]).

End ComponentsApi.

Arguments componentsApiRef {_} _.

(** ** Example data *)

(** The spec's example: [{name:'n', description:'d', resourceType:'catalog-entity'}]
    at location 1 of a store that holds nothing else. *)
Definition exampleInput : props :=
  {[ "name" := VString "n";
     "description" := VString "d";
     "resourceType" := VString "catalog-entity" ]}.

Definition exampleStore : heap := {[ 1%positive := exampleInput ]}.

(** A record whose [paramsSchema] is not a schema at all, and which has a
    property that a rule definition does not have. *)
Definition oddInput : props :=
  {[ "name" := VString "n";
     "description" := VString "d";
     "resourceType" := VString "catalog-entity";
     "paramsSchema" := VBool true;
     "owner" := VString "team-a" ]}.

Definition oddStore : heap := {[ 1%positive := oddInput ]}.

(** Three permission objects that share one [attributes] object: one
    written with [type: 'basic'] and a [resourceType], a resource
    permission and a basic permission. *)
Definition strayPermission : props :=
  {[ "name" := VString "catalog.entity.read";
     "attributes" := VObject 2%positive;
     "type" := VString "basic";
     "resourceType" := VString "catalog-entity" ]}.

Definition readEntity : props :=
  {[ "name" := VString "catalog.entity.read";
     "attributes" := VObject 2%positive;
     "type" := VString "resource";
     "resourceType" := VString "catalog-entity" ]}.

Definition createEntity : props :=
  {[ "name" := VString "catalog.entity.create";
     "attributes" := VObject 2%positive;
     "type" := VString "basic" ]}.

Definition permissionStore : heap :=
  {[ 1%positive := strayPermission;
     2%positive := {[ "action" := VString "read" ]};
     3%positive := readEntity;
     4%positive := createEntity ]}.

(** No imported type holds any value: the examples do not depend on
    them. *)
Definition noImports : string → list ty → value → bool := fun _ _ _ => false.

(** The stub backend of the spec: it tags each decision with the identity
    of the request it was made for. *)
Definition stubBackend (_ : option AuthorizeRequestOptions) (request : string)
    : Promise (string * bool) :=
  Resolves (request, true).

(** A [createApiRef] whose reference is the configuration it was given,
    and the [id] of such a reference. *)
Definition configAsRef (config : props) : props := config.
Definition refId (ref : props) : value := getOwn ref "id".

(** ** [Conditions] *)

(** [type Conditions<TRules extends Record<string, PermissionRuleDefinition<any, any>>> =
      { [Name in keyof TRules]: Condition<TRules[Name]> }]
    on an object type: the mapped type has the keys of [TRules], with their
    modifiers, and maps the type of each member through [Condition]. A type
    that is not written as an object type is outside the model. *)
Definition Conditions (ext : string → list ty → value → bool) (TRules : ty)
    : option ty :=
  match TRules with
  | TyObject ms =>
      Some (TyObject
              (map (fun m => Member (key m) (optional m) (Condition ext (type m))) ms))
  | _ => None
  end.

(** The members of an object type, none for another type. *)
Definition members_of (t : ty) : list member :=
  match t with
  | TyObject ms => ms
  | _ => []
  end.

(** Two rules of a catalog: one without parameters, one that takes a
    [kind]. *)
Definition exampleRules : ty :=
  TyObject
    [Member "isEntityOwner" false
       (PermissionRuleDefinition (TyLit "catalog-entity") TyUndefined);
     Member "isEntityKind" false
       (PermissionRuleDefinition (TyLit "catalog-entity")
          (TyObject [Member "kind" false TyString]))].

(** * Properties *)

(** ** The store *)

Lemma fresh_unallocated (h : heap) : h !! fresh (dom h) = None.
Proof. apply not_elem_of_dom, is_fresh. Qed.

Lemma fresh_ne_allocated (h : heap) (l : loc) :
  is_Some (h !! l) → fresh (dom h) ≠ l.
Proof.
  intros Hl Heq. rewrite <- Heq in Hl.
  rewrite fresh_unallocated in Hl. by destruct Hl.
Qed.

(** ** The types *)

Section TypeFacts.

Variable ext : string → list ty → value → bool.

Lemma has_type_object (h : heap) (ms : list member) (l : loc) (o : props) :
  h !! l = Some o →
  has_type ext h (TyObject ms) (VObject l) = forallb (member_ok ext h o) ms.
Proof.
  intros Hl. simpl. rewrite Hl.
  induction ms as [| [k opt mt] ms IH]; [reflexivity |].
  simpl. rewrite IH. reflexivity.
Qed.

(** Only objects of the store have an object type with a member. *)
Lemma has_type_object_inv (h : heap) (m : member) (ms : list member) (v : value) :
  has_type ext h (TyObject (m :: ms)) v = true →
  ∃ (l : loc) (o : props),
    v = VObject l ∧ h !! l = Some o ∧
    member_ok ext h o m = true ∧ forallb (member_ok ext h o) ms = true.
Proof.
  destruct v as [| | b | s | l]; try (simpl; discriminate).
  destruct (h !! l) as [o |] eqn:Hl; [| simpl; rewrite Hl; discriminate].
  rewrite (has_type_object h _ l o Hl). simpl.
  intros [Hm Hms]%andb_true_iff. by exists l, o.
Qed.

(** A required member is present, with a value of its type. *)
Lemma member_ok_required (h : heap) (o : props) (k : string) (t : ty) :
  member_ok ext h o (Member k false t) = true →
  ∃ x : value, o !! k = Some x ∧ has_type ext h t x = true.
Proof.
  unfold member_ok; simpl. destruct (o !! k) as [x |]; [| discriminate].
  rewrite orb_false_r. eauto.
Qed.

Lemma has_type_inter (h : heap) (a b : ty) (v : value) :
  has_type ext h (TyInter a b) v = has_type ext h a v && has_type ext h b v.
Proof. reflexivity. Qed.

(** Whether a value that is not an object has a type does not depend on
    the store. *)
Lemma has_type_primitive (h h' : heap) (t : ty) (v : value) :
  (∀ l : loc, v ≠ VObject l) →
  has_type ext h t v = has_type ext h' t v.
Proof.
  intros Hv. induction t; simpl; try reflexivity.
  - by rewrite IHt1, IHt2.
  - by rewrite IHt1, IHt2.
  - destruct v; try reflexivity. by destruct (Hv l).
Qed.

(** Whether [undefined] is a value of a type is what
    [undefined extends T] computes. *)
Lemma undefined_extends_has_type (h : heap) (t : ty) :
  undefined_extends ext t = has_type ext h t VUndefined.
Proof.
  induction t; simpl; try reflexivity.
  - by rewrite IHt1, IHt2.
  - by rewrite IHt1, IHt2.
Qed.

(** The values of a type that extends [string] are strings. *)
Lemma extends_string_value (h : heap) (t : ty) (v : value) :
  extends_string t = true → has_type ext h t v = true → ∃ s : string, v = VString s.
Proof.
  induction t; simpl; try discriminate.
  - intros _. destruct v; try discriminate. eauto.
  - intros _ Hv%bool_decide_eq_true. eauto.
  - intros [H1 H2]%andb_true_iff [Hv | Hv]%orb_true_iff; eauto.
  - intros [H1 | H2]%orb_true_iff [Hv1 Hv2]%andb_true_iff; eauto.
Qed.

End TypeFacts.

Lemma BasicPermission_members :
  "resourceType" ∉ known_members BasicPermission.
Proof.
  intros H%list_elem_of_In. simpl in H.
  repeat (destruct H as [H | H]; [discriminate |]). exact H.
Qed.

Lemma infer_PermissionRuleDefinition_instance (R P : ty) :
  extends_string R = true →
  infer_PermissionRuleDefinition (PermissionRuleDefinition R P) = Some (R, P).
Proof.
  intros HR. unfold infer_PermissionRuleDefinition, PermissionRuleDefinition.
  simpl. rewrite HR. reflexivity.
Qed.

Lemma Condition_instance (ext : string → list ty → value → bool) (R P : ty) :
  extends_string R = true →
  Condition ext (PermissionRuleDefinition R P) =
    if undefined_extends ext P
    then TyFun [] (PermissionCondition R P)
    else TyFun [P] (PermissionCondition R P).
Proof.
  intros HR.
  change (Condition ext (PermissionRuleDefinition R P))
    with (match infer_PermissionRuleDefinition (PermissionRuleDefinition R P) with
          | Some (TResourceType, TParams) =>
              if undefined_extends ext TParams
              then TyFun [] (PermissionCondition TResourceType TParams)
              else TyFun [TParams] (PermissionCondition TResourceType TParams)
          | None => TyNever
          end).
  by rewrite (infer_PermissionRuleDefinition_instance R P HR).
Qed.

(** ** [createPermissionRuleDefinition] *)

Lemma literal_ruleProps (o : props) :
  literal [("name", getOwn o "name");
           ("description", getOwn o "description");
           ("resourceType", getOwn o "resourceType");
           ("paramsSchema", getOwn o "paramsSchema")] = ruleProps o.
Proof.
  unfold literal, ruleProps; simpl.
  apply map_eq; intros k.
  rewrite !lookup_insert, lookup_singleton, lookup_empty.
  repeat case_decide; subst; try done.
Qed.

(** One call on an object of the store: the result is a new object with
    the four properties, and the store is otherwise as before. *)
Lemma createPermissionRuleDefinition_eval (h : heap) (l : loc) (o : props) :
  h !! l = Some o →
  createPermissionRuleDefinition (VObject l) h =
    Returns (VObject (fresh (dom h))) (<[fresh (dom h) := ruleProps o]> h).
Proof.
  intros Hl. rewrite <- literal_ruleProps.
  unfold createPermissionRuleDefinition, mbind, M_bind, bind, getProp, newObject.
  rewrite Hl. reflexivity.
Qed.

Lemma dom_ruleProps (o : props) : dom (ruleProps o) = ruleKeys.
Proof.
  unfold ruleProps, ruleKeys.
  rewrite !dom_insert_L, dom_singleton_L. set_solver.
Qed.

Lemma lookup_ruleProps (o : props) (k : string) :
  k ∈ ruleKeys → ruleProps o !! k = Some (getOwn o k).
Proof.
  unfold ruleKeys. rewrite !elem_of_union, !elem_of_singleton.
  intros [[[-> | ->] | ->] | ->]; reflexivity.
Qed.

Lemma getOwn_ruleProps (o : props) (k : string) :
  k ∈ ruleKeys → getOwn (ruleProps o) k = getOwn o k.
Proof. intros Hk. unfold getOwn at 1. by rewrite lookup_ruleProps. Qed.

Lemma ruleProps_idempotent (o : props) : ruleProps (ruleProps o) = ruleProps o.
Proof.
  unfold ruleProps at 1.
  rewrite !getOwn_ruleProps by (unfold ruleKeys; set_solver).
  reflexivity.
Qed.

Lemma ruleProps_ext (o1 o2 : props) :
  (∀ k, k ∈ ruleKeys → getOwn o1 k = getOwn o2 k) → ruleProps o1 = ruleProps o2.
Proof.
  intros Hk. unfold ruleProps.
  rewrite !Hk by (unfold ruleKeys; set_solver). reflexivity.
Qed.

(** A member of a rule definition that holds of the argument holds of the
    result, when its value is not an object or its type is imported. *)
Lemma member_ok_ruleProps (ext : string → list ty → value → bool)
    (h h' : heap) (o : props) (k : string) (opt : bool) (t : ty) :
  k ∈ ruleKeys →
  (∀ x, has_type ext h t x = true → has_type ext h' t x = true) →
  member_ok ext h o (Member k opt t) = true →
  member_ok ext h' (ruleProps o) (Member k opt t) = true.
Proof.
  intros Hk Ht. unfold member_ok; simpl.
  rewrite (lookup_ruleProps o k Hk). unfold getOwn.
  destruct (o !! k) as [x |]; simpl.
  - intros [Hx | Hx]%orb_true_iff; apply orb_true_iff; [left; by apply Ht | by right].
  - intros ->. apply orb_true_iff; right. reflexivity.
Qed.

(** The result of a call on a rule definition is a rule definition. *)
Lemma ruleProps_typed (ext : string → list ty → value → bool)
    (h h' : heap) (l l' : loc) (o : props) (R P : ty) :
  h !! l = Some o → h' !! l' = Some (ruleProps o) →
  extends_string R = true →
  has_type ext h (PermissionRuleDefinition R P) (VObject l) = true →
  has_type ext h' (PermissionRuleDefinition R P) (VObject l') = true.
Proof.
  intros Hl Hl' HR. unfold PermissionRuleDefinition.
  rewrite (has_type_object ext h _ l o Hl).
  rewrite (has_type_object ext h' _ l' (ruleProps o) Hl').
  cbn [forallb]. rewrite !andb_true_iff.
  intros (Hname & Hdescription & HresourceType & HparamsSchema & _).
  repeat split.
  - revert Hname. apply member_ok_ruleProps; [unfold ruleKeys; set_solver |].
    intros x Hx. by destruct x.
  - revert Hdescription. apply member_ok_ruleProps; [unfold ruleKeys; set_solver |].
    intros x Hx. by destruct x.
  - revert HresourceType. apply member_ok_ruleProps; [unfold ruleKeys; set_solver |].
    intros x Hx. destruct (extends_string_value ext h R x HR Hx) as [s ->].
    by rewrite <- (has_type_primitive ext h h' R (VString s)).
  - revert HparamsSchema. apply member_ok_ruleProps; [unfold ruleKeys; set_solver |].
    intros x Hx. exact Hx.
Qed.

(** C1. Called on a record [{name, description, resourceType, paramsSchema?}],
    [createPermissionRuleDefinition] returns an object whose properties are
    exactly [name], [description], [resourceType] and [paramsSchema] with the
    values read from the record, [paramsSchema] being [undefined] when the
    record has none; and when the record is a
    [PermissionRuleDefinition<R, P>], so is the object returned. *)
Theorem createPermissionRuleDefinition_fields
    (ext : string → list ty → value → bool) (R P : ty)
    (h : heap) (l : loc) (o : props) :
  h !! l = Some o →
  ∃ (l' : loc) (h' : heap),
    createPermissionRuleDefinition (VObject l) h = Returns (VObject l') h' ∧
    h' !! l' =
      Some {[ "name" := getOwn o "name";
              "description" := getOwn o "description";
              "resourceType" := getOwn o "resourceType";
              "paramsSchema" := getOwn o "paramsSchema" ]} ∧
    (extends_string R = true →
     has_type ext h (PermissionRuleDefinition R P) (VObject l) = true →
     has_type ext h' (PermissionRuleDefinition R P) (VObject l') = true).
Proof.
  intros Hl. exists (fresh (dom h)), (<[fresh (dom h) := ruleProps o]> h).
  split; [| split].
  - by apply createPermissionRuleDefinition_eval.
  - by rewrite lookup_insert_eq.
  - apply (ruleProps_typed ext h _ l _ o R P Hl). by rewrite lookup_insert_eq.
Qed.

(** The example of the spec: the result is
    [{name:'n', description:'d', resourceType:'catalog-entity', paramsSchema:undefined}]. *)
Lemma createPermissionRuleDefinition_fields_example :
  exampleStore !! 1%positive = Some exampleInput ∧
  ∃ (l' : loc) (h' : heap),
    createPermissionRuleDefinition (VObject 1%positive) exampleStore
      = Returns (VObject l') h' ∧
    h' !! l' =
      Some {[ "name" := VString "n";
              "description" := VString "d";
              "resourceType" := VString "catalog-entity";
              "paramsSchema" := VUndefined ]} ∧
    has_type noImports h'
      (PermissionRuleDefinition (TyLit "catalog-entity") TyUndefined)
      (VObject l') = true.
Proof.
  split; [reflexivity |].
  destruct (createPermissionRuleDefinition_fields noImports
              (TyLit "catalog-entity") TyUndefined
              exampleStore 1%positive exampleInput)
    as (l' & h' & Hcall & Hprops & Htyped); [reflexivity |].
  exists l', h'. split; [exact Hcall |]. split; [exact Hprops |].
  apply Htyped; vm_compute; reflexivity.
Defined.

(** C5, as stated, fails: not every input gives a result. The function
    destructures its parameter, and destructuring [undefined] or [null]
    throws a TypeError. The parameter type excludes both. *)
Lemma createPermissionRuleDefinition_undefined_throws :
  createPermissionRuleDefinition VUndefined ∅ = Throws TypeError ∧
  createPermissionRuleDefinition VNull ∅ = Throws TypeError.
Proof. split; reflexivity. Qed.

(** C5, amended. On an argument that is an object with plain data
    properties, [createPermissionRuleDefinition] validates nothing and never
    fails: whatever the properties of the record are, the call returns; its
    only effect on the store is the allocation of the result, at a location
    that was free; [paramsSchema] is stored as it was read; and the
    properties of the result are a function of the four values read, so that
    calls on records that agree on them, in any stores, give equal
    results. *)
Theorem createPermissionRuleDefinition_pure (h : heap) (l : loc) (o : props) :
  h !! l = Some o →
  ∃ (l' : loc) (r : props),
    createPermissionRuleDefinition (VObject l) h
      = Returns (VObject l') (<[l' := r]> h) ∧
    h !! l' = None ∧
    getOwn r "paramsSchema" = getOwn o "paramsSchema" ∧
    ∀ (h2 : heap) (l2 : loc) (o2 : props),
      h2 !! l2 = Some o2 →
      (∀ k, k ∈ ruleKeys → getOwn o2 k = getOwn o k) →
      ∃ l2' : loc,
        createPermissionRuleDefinition (VObject l2) h2
          = Returns (VObject l2') (<[l2' := r]> h2).
Proof.
  intros Hl. exists (fresh (dom h)), (ruleProps o).
  split; [| split; [| split]].
  - by apply createPermissionRuleDefinition_eval.
  - apply fresh_unallocated.
  - apply getOwn_ruleProps. unfold ruleKeys; set_solver.
  - intros h2 l2 o2 Hl2 Hagree. exists (fresh (dom h2)).
    rewrite <- (ruleProps_ext o2 o Hagree).
    by apply createPermissionRuleDefinition_eval.
Qed.

Lemma createPermissionRuleDefinition_pure_example :
  oddStore !! 1%positive = Some oddInput ∧
  ∃ (l' : loc) (r : props),
    createPermissionRuleDefinition (VObject 1%positive) oddStore
      = Returns (VObject l') (<[l' := r]> oddStore) ∧
    oddStore !! l' = None ∧
    getOwn r "paramsSchema" = VBool true ∧
    ∀ (h2 : heap) (l2 : loc) (o2 : props),
      h2 !! l2 = Some o2 →
      (∀ k, k ∈ ruleKeys → getOwn o2 k = getOwn oddInput k) →
      ∃ l2' : loc,
        createPermissionRuleDefinition (VObject l2) h2
          = Returns (VObject l2') (<[l2' := r]> h2).
Proof.
  split; [reflexivity |].
  apply (createPermissionRuleDefinition_pure oddStore 1%positive oddInput).
  reflexivity.
Defined.

(** C8. Applying [createPermissionRuleDefinition] to its own result gives a
    second object with the same properties as the first. *)
Theorem createPermissionRuleDefinition_idempotent (h : heap) (l : loc) (o : props) :
  h !! l = Some o →
  ∃ (l1 l2 : loc) (h1 h2 : heap) (r : props),
    createPermissionRuleDefinition (VObject l) h = Returns (VObject l1) h1 ∧
    createPermissionRuleDefinition (VObject l1) h1 = Returns (VObject l2) h2 ∧
    h2 !! l1 = Some r ∧
    h2 !! l2 = Some r.
Proof.
  intros Hl.
  set (l1 := fresh (dom h)). set (h1 := <[l1 := ruleProps o]> h).
  assert (Hl1 : h1 !! l1 = Some (ruleProps o)) by apply lookup_insert_eq.
  exists l1, (fresh (dom h1)), h1, (<[fresh (dom h1) := ruleProps o]> h1), (ruleProps o).
  split; [| split; [| split]].
  - by apply createPermissionRuleDefinition_eval.
  - rewrite (createPermissionRuleDefinition_eval h1 l1 (ruleProps o) Hl1).
    by rewrite ruleProps_idempotent.
  - rewrite lookup_insert_ne; [done |]. by apply fresh_ne_allocated.
  - apply lookup_insert_eq.
Qed.

Lemma createPermissionRuleDefinition_idempotent_example :
  exampleStore !! 1%positive = Some exampleInput ∧
  ∃ (l1 l2 : loc) (h1 h2 : heap) (r : props),
    createPermissionRuleDefinition (VObject 1%positive) exampleStore
      = Returns (VObject l1) h1 ∧
    createPermissionRuleDefinition (VObject l1) h1 = Returns (VObject l2) h2 ∧
    h2 !! l1 = Some r ∧
    h2 !! l2 = Some r.
Proof.
  split; [reflexivity |].
  apply (createPermissionRuleDefinition_idempotent exampleStore 1%positive exampleInput).
  reflexivity.
Defined.

(** C9. The object returned by [createPermissionRuleDefinition] has the
    four keys [name], [description], [resourceType] and [paramsSchema] and
    no other: a further property of the argument is not copied. *)
Theorem createPermissionRuleDefinition_keys (h : heap) (l : loc) (o : props) :
  h !! l = Some o →
  ∃ (l' : loc) (h' : heap) (r : props),
    createPermissionRuleDefinition (VObject l) h = Returns (VObject l') h' ∧
    h' !! l' = Some r ∧
    dom r = {[ "name"; "description"; "resourceType"; "paramsSchema" ]} ∧
    ∀ (k : string) (v : value),
      o !! k = Some v →
      k ∉ ({[ "name"; "description"; "resourceType"; "paramsSchema" ]} : gset string) →
      r !! k = None.
Proof.
  intros Hl.
  exists (fresh (dom h)), (<[fresh (dom h) := ruleProps o]> h), (ruleProps o).
  split; [| split; [| split]].
  - by apply createPermissionRuleDefinition_eval.
  - apply lookup_insert_eq.
  - apply dom_ruleProps.
  - intros k v _ Hk. apply not_elem_of_dom. by rewrite dom_ruleProps.
Qed.

Lemma createPermissionRuleDefinition_keys_example :
  oddStore !! 1%positive = Some oddInput ∧
  oddInput !! "owner" = Some (VString "team-a") ∧
  ∃ (l' : loc) (h' : heap) (r : props),
    createPermissionRuleDefinition (VObject 1%positive) oddStore
      = Returns (VObject l') h' ∧
    h' !! l' = Some r ∧
    dom r = {[ "name"; "description"; "resourceType"; "paramsSchema" ]} ∧
    ∀ (k : string) (v : value),
      oddInput !! k = Some v →
      k ∉ ({[ "name"; "description"; "resourceType"; "paramsSchema" ]} : gset string) →
      r !! k = None.
Proof.
  split; [reflexivity |]. split; [reflexivity |].
  apply (createPermissionRuleDefinition_keys oddStore 1%positive oddInput).
  reflexivity.
Defined.



(** ** [Permission] *)

(** C3, as stated, fails on the values of the type. Object types are open:
    the object at location 1, with [type: 'basic'] and a [resourceType]
    property, is a value of type [BasicPermission]. *)
Lemma BasicPermission_value_with_resourceType :
  has_type noImports permissionStore BasicPermission (VObject 1%positive) = true ∧
  permissionStore !! 1%positive = Some strayPermission ∧
  strayPermission !! "resourceType" = Some (VString "catalog-entity").
Proof. repeat split; vm_compute; reflexivity. Qed.

(** C3, amended. Every value of type [ResourcePermission<X>] is an object
    whose [type] is ['resource'] and whose [resourceType] is a value of [X];
    every value of type [BasicPermission] is an object whose [type] is
    ['basic']; [BasicPermission] declares no member [resourceType], and an
    object literal that specifies [resourceType] is not assignable to it. *)
Theorem Permission_discriminator
    (ext : string → list ty → value → bool) (h : heap) (X : ty) :
  (∀ r : value,
     has_type ext h (ResourcePermission X) r = true →
     ∃ (l : loc) (o : props) (x : value),
       r = VObject l ∧ h !! l = Some o ∧
       o !! "type" = Some (VString "resource") ∧
       o !! "resourceType" = Some x ∧ has_type ext h X x = true) ∧
  (∀ b : value,
     has_type ext h BasicPermission b = true →
     ∃ (l : loc) (o : props),
       b = VObject l ∧ h !! l = Some o ∧
       o !! "type" = Some (VString "basic")) ∧
  ("resourceType" ∉ known_members BasicPermission) ∧
  (∀ (l : loc) (o : props),
     h !! l = Some o → is_Some (o !! "resourceType") →
     literal_assignable ext h BasicPermission l = false).
Proof.
  split; [| split; [| split]].
  - intros r Hr. unfold ResourcePermission, PermissionBase in Hr.
    rewrite !has_type_inter in Hr.
    apply andb_true_iff in Hr as [[_ Htype]%andb_true_iff Hfields].
    apply has_type_object_inv in Htype as (l & o & -> & Hl & Htype & _).
    apply has_type_object_inv in Hfields as (l' & o' & Heq & Hl' & Hres & _).
    injection Heq as <-. rewrite Hl in Hl'. injection Hl' as <-.
    apply member_ok_required in Htype as (t & Ht & Htt).
    apply bool_decide_eq_true in Htt as ->.
    apply member_ok_required in Hres as (x & Hx & Hxx).
    by exists l, o, x.
  - intros b Hb. unfold BasicPermission, PermissionBase in Hb.
    rewrite !has_type_inter in Hb.
    apply andb_true_iff in Hb as [[_ Htype]%andb_true_iff _].
    apply has_type_object_inv in Htype as (l & o & -> & Hl & Htype & _).
    apply member_ok_required in Htype as (t & Ht & Htt).
    apply bool_decide_eq_true in Htt as ->.
    by exists l, o.
  - exact BasicPermission_members.
  - intros l o Hl Hres. unfold literal_assignable.
    apply andb_false_iff; right. cbn [known_members BasicPermission PermissionBase map app key].
    apply bool_decide_eq_false.
    rewrite Hl; simpl. intros Hsub.
    apply BasicPermission_members.
    apply (elem_of_list_to_set (C := gset string)), Hsub.
    by apply elem_of_dom.
Qed.

Lemma Permission_discriminator_example :
  (has_type noImports permissionStore (ResourcePermission (TyLit "catalog-entity"))
     (VObject 3%positive) = true ∧
   ∃ (l : loc) (o : props) (x : value),
     VObject 3%positive = VObject l ∧ permissionStore !! l = Some o ∧
     o !! "type" = Some (VString "resource") ∧
     o !! "resourceType" = Some x ∧
     has_type noImports permissionStore (TyLit "catalog-entity") x = true) ∧
  (has_type noImports permissionStore BasicPermission (VObject 4%positive) = true ∧
   ∃ (l : loc) (o : props),
     VObject 4%positive = VObject l ∧ permissionStore !! l = Some o ∧
     o !! "type" = Some (VString "basic")) ∧
  (permissionStore !! 1%positive = Some strayPermission ∧
   is_Some (strayPermission !! "resourceType") ∧
   literal_assignable noImports permissionStore BasicPermission 1%positive = false).
Proof.
  destruct (Permission_discriminator noImports permissionStore (TyLit "catalog-entity"))
    as (Hres & Hbasic & _ & Hliteral).
  split; [| split].
  - split; [vm_compute; reflexivity |]. apply Hres. vm_compute; reflexivity.
  - split; [vm_compute; reflexivity |]. apply Hbasic. vm_compute; reflexivity.
  - split; [reflexivity |]. split; [by eexists |].
    apply (Hliteral 1%positive strayPermission); [reflexivity | by eexists].
Defined.

(** The check on literals accepts a [BasicPermission] written without
    [resourceType]. *)
Example BasicPermission_literal_accepted :
  literal_assignable noImports permissionStore BasicPermission 4%positive = true.
Proof. vm_compute. reflexivity. Qed.

(** ** [PermissionAttributes] *)

(** C7. An object is a value of type [PermissionAttributes] exactly when
    its [action] is missing or [undefined], or is one of ['create'],
    ['read'], ['update'] and ['delete']; so an [action] that is present is
    one of these four strings. *)
Theorem PermissionAttributes_action
    (ext : string → list ty → value → bool) (h : heap) (l : loc) (o : props) :
  h !! l = Some o →
  has_type ext h PermissionAttributes (VObject l) = true ↔
  getOwn o "action" = VUndefined ∨
  getOwn o "action" ∈
    [VString "create"; VString "read"; VString "update"; VString "delete"].
Proof.
  intros Hl. unfold PermissionAttributes.
  rewrite (has_type_object ext h _ l o Hl). unfold getOwn, member_ok; simpl.
  rewrite andb_true_r.
  destruct (o !! "action") as [a |]; simpl; [| by intuition].
  rewrite !orb_true_iff, !bool_decide_eq_true, !elem_of_cons, elem_of_nil.
  tauto.
Qed.

Lemma PermissionAttributes_action_example :
  permissionStore !! 2%positive = Some {[ "action" := VString "read" ]} ∧
  has_type noImports permissionStore PermissionAttributes (VObject 2%positive) = true ∧
  (getOwn {[ "action" := VString "read" ]} "action" = VUndefined ∨
   getOwn {[ "action" := VString "read" ]} "action" ∈
     [VString "create"; VString "read"; VString "update"; VString "delete"]).
Proof.
  split; [reflexivity |]. split; [vm_compute; reflexivity |].
  apply (PermissionAttributes_action noImports permissionStore 2%positive
           {[ "action" := VString "read" ]}); [reflexivity |].
  vm_compute; reflexivity.
Defined.

(** An [action] outside the four is not legal. *)
Example execute_is_no_action :
  has_type noImports {[ 1%positive := {[ "action" := VString "execute" ]} ]}
    PermissionAttributes (VObject 1%positive) = false.
Proof. vm_compute. reflexivity. Qed.

(** ** [Condition] *)

(** C6. For a rule type [PermissionRuleDefinition<R, P>], [Condition] is
    the function type without parameters
    [() => PermissionCondition<R, P>] exactly when [undefined] is a value
    of [P], and the function type of one parameter
    [(params: P) => PermissionCondition<R, P>] exactly when it is not. *)
Theorem Condition_PermissionRuleDefinition
    (ext : string → list ty → value → bool) (h : heap) (R P : ty) :
  extends_string R = true →
  (Condition ext (PermissionRuleDefinition R P) = TyFun [] (PermissionCondition R P)
   ↔ has_type ext h P VUndefined = true) ∧
  (Condition ext (PermissionRuleDefinition R P) = TyFun [P] (PermissionCondition R P)
   ↔ has_type ext h P VUndefined = false).
Proof.
  intros HR. rewrite (Condition_instance ext R P HR).
  rewrite (undefined_extends_has_type ext h P).
  destruct (has_type ext h P VUndefined); split; split; try done.
Qed.

Lemma Condition_PermissionRuleDefinition_example :
  extends_string (TyLit "catalog-entity") = true ∧
  Condition noImports (PermissionRuleDefinition (TyLit "catalog-entity") TyUndefined)
    = TyFun [] (PermissionCondition (TyLit "catalog-entity") TyUndefined) ∧
  Condition noImports
    (PermissionRuleDefinition (TyLit "catalog-entity")
       (TyObject [Member "kind" false TyString]))
    = TyFun [TyObject [Member "kind" false TyString]]
        (PermissionCondition (TyLit "catalog-entity")
           (TyObject [Member "kind" false TyString])).
Proof.
  split; [reflexivity |]. split.
  - apply (Condition_PermissionRuleDefinition noImports ∅
             (TyLit "catalog-entity") TyUndefined); reflexivity.
  - apply (Condition_PermissionRuleDefinition noImports ∅
             (TyLit "catalog-entity") (TyObject [Member "kind" false TyString]));
      reflexivity.
Defined.

(** A type that is not a rule definition is mapped to [never], and a
    union of rule definitions to the union of their conditions. *)
Example Condition_of_string : Condition noImports TyString = TyNever.
Proof. reflexivity. Qed.

Example Condition_of_union :
  Condition noImports
    (TyUnion (PermissionRuleDefinition TyString TyUndefined)
       (PermissionRuleDefinition TyString TyString))
  = TyUnion (TyFun [] (PermissionCondition TyString TyUndefined))
      (TyFun [TyString] (PermissionCondition TyString TyString)).
Proof. reflexivity. Qed.

(** ** [PermissionAuthorizer] *)

Section AuthorizeFacts.

Context {Request Response : Type}.
Variable backend : option AuthorizeRequestOptions → Request → Promise Response.

(** A batch that resolves pairs every request with the decision of the
    backend on it, in order. *)
Lemma authorizeBatch_Forall2 (options : option AuthorizeRequestOptions)
    (requests : list Request) (decisions : list Response) :
  authorizeBatch backend options requests = Resolves decisions →
  Forall2 (fun request decision => backend options request = Resolves decision)
    requests decisions.
Proof.
  revert decisions.
  induction requests as [| request rest IH]; intros decisions; simpl.
  - intros [= <-]. constructor.
  - destruct (backend options request) as [decision |] eqn:Hd; [| discriminate].
    destruct (authorizeBatch backend options rest) as [ds |]; [| discriminate].
    intros [= <-]. constructor; [exact Hd | by apply IH].
Qed.

(** The batch resolves when the backend decides every request. *)
Lemma authorizeBatch_resolves (options : option AuthorizeRequestOptions)
    (requests : list Request) :
  Forall (fun request => ∃ d, backend options request = Resolves d) requests →
  ∃ decisions, authorizeBatch backend options requests = Resolves decisions.
Proof.
  induction 1 as [| request rest [d Hd] _ [ds IH]]; simpl.
  - by eexists.
  - rewrite Hd, IH. by eexists.
Qed.

End AuthorizeFacts.

(** C2. When [authorize] resolves, the array of decisions is as long as
    the array of requests, and the decision at each index is the one made
    for the request at that index. *)
Theorem authorize_position_aligned {Request Response : Type}
    (backend : option AuthorizeRequestOptions → Request → Promise Response)
    (requests : list Request) (options : option AuthorizeRequestOptions)
    (decisions : list Response) :
  authorize (batchAuthorizer backend) requests options = Resolves decisions →
  length decisions = length requests ∧
  ∀ (i : nat) (request : Request),
    requests !! i = Some request →
    ∃ decision : Response,
      decisions !! i = Some decision ∧
      backend options request = Resolves decision.
Proof.
  simpl. intros Hall%authorizeBatch_Forall2. split.
  - symmetry. by eapply Forall2_length.
  - intros i request Hi.
    destruct (Forall2_lookup_l _ _ _ _ _ Hall Hi) as (decision & Hd & Hb).
    by exists decision.
Qed.

Lemma authorize_position_aligned_example :
  authorize (batchAuthorizer stubBackend) ["req1"; "req2"] None
    = Resolves [("req1", true); ("req2", true)] ∧
  length [("req1", true); ("req2", true)] = length ["req1"; "req2"] ∧
  ∀ (i : nat) (request : string),
    ["req1"; "req2"] !! i = Some request →
    ∃ decision : string * bool,
      [("req1", true); ("req2", true)] !! i = Some decision ∧
      stubBackend None request = Resolves decision.
Proof.
  split; [reflexivity |].
  apply (authorize_position_aligned stubBackend ["req1"; "req2"] None).
  reflexivity.
Defined.

(** The signature of [authorize] alone does not tie the decisions to the
    requests: an authorizer that resolves to an empty array has the type of
    the interface. *)
Remark PermissionAuthorizer_signature_is_loose :
  ∃ a : PermissionAuthorizer string (string * bool),
    authorize a ["req1"; "req2"] None = Resolves [].
Proof. by exists {| authorize := fun _ _ => Resolves [] |}. Qed.

(** ** [componentsApiRef] *)

(** C4. [componentsApiRef] is the result of [createApiRef] on a
    configuration whose only property is [id], with the value
    ['core.components']; so whenever the reference made by [createApiRef]
    answers with the [id] of its configuration, the [id] of
    [componentsApiRef] is ['core.components']. *)
Theorem componentsApiRef_id {ApiRef : Type} (createApiRef : props → ApiRef) :
  componentsApiRef createApiRef
    = createApiRef {[ "id" := VString "core.components" ]} ∧
  ∀ getId : ApiRef → value,
    (∀ config : props, getId (createApiRef config) = getOwn config "id") →
    getId (componentsApiRef createApiRef) = VString "core.components".
Proof.
  assert (Hlit : literal [("id", VString "core.components")]
                 = {[ "id" := VString "core.components" ]}).
  { unfold literal; simpl. apply insert_empty. }
  unfold componentsApiRef. rewrite Hlit. split; [reflexivity |].
  intros getId Hid. rewrite Hid. reflexivity.
Qed.

Lemma componentsApiRef_id_example :
  (∀ config : props, refId (configAsRef config) = getOwn config "id") ∧
  refId (componentsApiRef configAsRef) = VString "core.components".
Proof.
  split; [reflexivity |].
  apply (proj2 (componentsApiRef_id configAsRef) refId).
  reflexivity.
Defined.

(** * Further properties *)

(** ** [Permission] as a discriminated union *)

Section PermissionFacts.

Variable ext : string → list ty → value → bool.

Lemma has_type_PermissionBase (h : heap) (TType TFields : ty) (v : value) :
  has_type ext h (PermissionBase TType TFields) v = true →
  ∃ (l : loc) (o : props) (t : value),
    v = VObject l ∧ h !! l = Some o ∧
    o !! "type" = Some t ∧ has_type ext h TType t = true ∧
    has_type ext h TFields v = true.
Proof.
  unfold PermissionBase. rewrite !has_type_inter.
  intros [[_ Htype]%andb_true_iff Hfields]%andb_true_iff.
  apply has_type_object_inv in Htype as (l & o & -> & Hl & Htype & _).
  apply member_ok_required in Htype as (t & Ht & Htt).
  by exists l, o, t.
Qed.

End PermissionFacts.

(** X1. Narrowing on the discriminant. The [type] of a [Permission] is
    ['basic'] or ['resource']; a [Permission] whose [type] is ['basic'] is a
    [BasicPermission], and one whose [type] is ['resource'] is a
    [ResourcePermission]. *)
Theorem Permission_narrowing
    (ext : string → list ty → value → bool) (h : heap) (l : loc) (o : props) :
  h !! l = Some o →
  has_type ext h Permission (VObject l) = true →
  (o !! "type" = Some (VString "basic") ∨ o !! "type" = Some (VString "resource")) ∧
  (o !! "type" = Some (VString "basic") →
   has_type ext h BasicPermission (VObject l) = true) ∧
  (o !! "type" = Some (VString "resource") →
   has_type ext h (ResourcePermission TyString) (VObject l) = true).
Proof.
  intros Hl. unfold Permission.
  change (has_type ext h (TyUnion ?a ?b) ?v) with (has_type ext h a v || has_type ext h b v).
  intros [Hb | Hr]%orb_true_iff.
  - destruct (has_type_PermissionBase ext h _ _ _ Hb) as (l' & o' & t & [= <-] & Hl' & Ht & Htt & _).
    rewrite Hl in Hl'. injection Hl' as <-.
    apply bool_decide_eq_true in Htt as ->.
    split; [by left |]. split; [done |]. rewrite Ht. discriminate.
  - destruct (has_type_PermissionBase ext h _ _ _ Hr) as (l' & o' & t & [= <-] & Hl' & Ht & Htt & _).
    rewrite Hl in Hl'. injection Hl' as <-.
    apply bool_decide_eq_true in Htt as ->.
    split; [by right |]. split; [| done]. rewrite Ht. discriminate.
Qed.

Lemma Permission_narrowing_example :
  permissionStore !! 3%positive = Some readEntity ∧
  has_type noImports permissionStore Permission (VObject 3%positive) = true ∧
  readEntity !! "type" = Some (VString "resource") ∧
  has_type noImports permissionStore (ResourcePermission TyString)
    (VObject 3%positive) = true.
Proof.
  split; [reflexivity |]. split; [vm_compute; reflexivity |].
  split; [reflexivity |].
  apply (Permission_narrowing noImports permissionStore 3%positive readEntity);
    [reflexivity | vm_compute; reflexivity | reflexivity].
Defined.

(** X2. No value is both a [BasicPermission] and a [ResourcePermission]. *)
Theorem BasicPermission_not_ResourcePermission
    (ext : string → list ty → value → bool) (h : heap) (X : ty) (v : value) :
  has_type ext h BasicPermission v = true →
  has_type ext h (ResourcePermission X) v = false.
Proof.
  intros Hb. apply not_true_is_false. intros Hr.
  destruct (has_type_PermissionBase ext h _ _ _ Hb) as (l & o & t & -> & Hl & Ht & Htt & _).
  destruct (has_type_PermissionBase ext h _ _ _ Hr) as (l' & o' & t' & [= <-] & Hl' & Ht' & Htt' & _).
  rewrite Hl in Hl'. injection Hl' as <-. rewrite Ht in Ht'. injection Ht' as <-.
  apply bool_decide_eq_true in Htt as ->.
  apply bool_decide_eq_true in Htt'. discriminate.
Qed.

Lemma BasicPermission_not_ResourcePermission_example :
  has_type noImports permissionStore BasicPermission (VObject 1%positive) = true ∧
  has_type noImports permissionStore (ResourcePermission TyString)
    (VObject 1%positive) = false.
Proof.
  split; [vm_compute; reflexivity |].
  apply (BasicPermission_not_ResourcePermission noImports permissionStore TyString).
  vm_compute; reflexivity.
Defined.

(** X3. [ResourcePermission] is covariant in its resource type: when every
    value of [X] is a value of [Y], every [ResourcePermission<X>] is a
    [ResourcePermission<Y>]. *)
Theorem ResourcePermission_covariant
    (ext : string → list ty → value → bool) (h : heap) (X Y : ty) (v : value) :
  (∀ x : value, has_type ext h X x = true → has_type ext h Y x = true) →
  has_type ext h (ResourcePermission X) v = true →
  has_type ext h (ResourcePermission Y) v = true.
Proof.
  intros HXY. unfold ResourcePermission, PermissionBase. rewrite !has_type_inter.
  intros [Hbase Hres]%andb_true_iff. rewrite Hbase, andb_true_l.
  apply has_type_object_inv in Hres as (l & o & -> & Hl & Hres & _).
  apply member_ok_required in Hres as (x & Hx & Hxx).
  rewrite (has_type_object ext h _ l o Hl). simpl.
  unfold member_ok; simpl. rewrite Hx, (HXY x Hxx). reflexivity.
Qed.

Lemma ResourcePermission_covariant_example :
  (∀ x : value,
     has_type noImports permissionStore (TyLit "catalog-entity") x = true →
     has_type noImports permissionStore
       (TyUnion (TyLit "catalog-entity") (TyLit "scaffolder-template")) x = true) ∧
  has_type noImports permissionStore (ResourcePermission (TyLit "catalog-entity"))
    (VObject 3%positive) = true ∧
  has_type noImports permissionStore
    (ResourcePermission
       (TyUnion (TyLit "catalog-entity") (TyLit "scaffolder-template")))
    (VObject 3%positive) = true.
Proof.
  assert (Hsub : ∀ x : value,
     has_type noImports permissionStore (TyLit "catalog-entity") x = true →
     has_type noImports permissionStore
       (TyUnion (TyLit "catalog-entity") (TyLit "scaffolder-template")) x = true).
  { intros x Hx. simpl in *. by rewrite Hx. }
  split; [exact Hsub |]. split; [vm_compute; reflexivity |].
  apply (ResourcePermission_covariant noImports permissionStore
           (TyLit "catalog-entity")
           (TyUnion (TyLit "catalog-entity") (TyLit "scaffolder-template"))
           (VObject 3%positive) Hsub).
  vm_compute; reflexivity.
Defined.

(** X4. A [ResourcePermission<X>] whose resource type extends [string], as
    the declaration requires, is a [Permission]. *)
Theorem ResourcePermission_is_Permission
    (ext : string → list ty → value → bool) (h : heap) (X : ty) (v : value) :
  extends_string X = true →
  has_type ext h (ResourcePermission X) v = true →
  has_type ext h Permission v = true.
Proof.
  intros HX. unfold ResourcePermission at 1, PermissionBase. rewrite !has_type_inter.
  intros [Hbase Hres]%andb_true_iff.
  apply has_type_object_inv in Hres as (l & o & -> & Hl & Hres & _).
  apply member_ok_required in Hres as (x & Hx & Hxx).
  destruct (extends_string_value ext h X x HX Hxx) as [s ->].
  unfold Permission.
  change (has_type ext h (TyUnion ?a ?b) ?w)
    with (has_type ext h a w || has_type ext h b w).
  apply orb_true_iff; right.
  unfold ResourcePermission, PermissionBase. rewrite !has_type_inter.
  rewrite Hbase, andb_true_l.
  rewrite (has_type_object ext h _ l o Hl). simpl.
  unfold member_ok; simpl. rewrite Hx. reflexivity.
Qed.

Lemma ResourcePermission_is_Permission_example :
  extends_string (TyLit "catalog-entity") = true ∧
  has_type noImports permissionStore (ResourcePermission (TyLit "catalog-entity"))
    (VObject 3%positive) = true ∧
  has_type noImports permissionStore Permission (VObject 3%positive) = true.
Proof.
  split; [reflexivity |]. split; [vm_compute; reflexivity |].
  apply (ResourcePermission_is_Permission noImports permissionStore
           (TyLit "catalog-entity")); [reflexivity | vm_compute; reflexivity].
Defined.

(** ** [Conditions] *)

Lemma find_member_map (f : ty → ty) (k : string) (ms : list member) :
  find_member k (map (fun m => Member (key m) (optional m) (f (type m))) ms)
  = (fun m => Member (key m) (optional m) (f (type m))) <$> find_member k ms.
Proof.
  induction ms as [| m ms IH]; [reflexivity |].
  simpl. destruct (bool_decide (key m = k)); [reflexivity | exact IH].
Qed.

(** X7. For a rule named [k] of type [PermissionRuleDefinition<R, P>],
    [Conditions] has under [k] the constructor of its conditions: without
    parameters when [undefined] is a value of [P], with the parameter
    [params: P] when it is not. *)
Theorem Conditions_constructor
    (ext : string → list ty → value → bool) (h : heap)
    (ms : list member) (k : string) (m : member) (R P : ty) :
  find_member k ms = Some m →
  type m = PermissionRuleDefinition R P →
  extends_string R = true →
  ∃ (T : ty) (c : member),
    Conditions ext (TyObject ms) = Some T ∧
    find_member k (members_of T) = Some c ∧
    key c = key m ∧
    type c =
      if has_type ext h P VUndefined
      then TyFun [] (PermissionCondition R P)
      else TyFun [P] (PermissionCondition R P).
Proof.
  intros Hm Ht HR. eexists; eexists. split; [reflexivity |]. simpl.
  rewrite find_member_map, Hm. simpl. split; [reflexivity |].
  split; [reflexivity |]. simpl.
  rewrite Ht, (Condition_instance ext R P HR).
  by rewrite (undefined_extends_has_type ext h P).
Qed.

Lemma Conditions_constructor_example :
  find_member "isEntityKind" (members_of exampleRules)
    = Some (Member "isEntityKind" false
              (PermissionRuleDefinition (TyLit "catalog-entity")
                 (TyObject [Member "kind" false TyString]))) ∧
  extends_string (TyLit "catalog-entity") = true ∧
  ∃ (T : ty) (c : member),
    Conditions noImports exampleRules = Some T ∧
    find_member "isEntityKind" (members_of T) = Some c ∧
    key c = "isEntityKind" ∧
    type c =
      TyFun [TyObject [Member "kind" false TyString]]
        (PermissionCondition (TyLit "catalog-entity")
           (TyObject [Member "kind" false TyString])).
Proof.
  split; [reflexivity |]. split; [reflexivity |].
  apply (Conditions_constructor noImports ∅ (members_of exampleRules) "isEntityKind"
           (Member "isEntityKind" false
              (PermissionRuleDefinition (TyLit "catalog-entity")
                 (TyObject [Member "kind" false TyString])))
           (TyLit "catalog-entity") (TyObject [Member "kind" false TyString]));
    reflexivity.
Defined.

(** ** [createPermissionRuleDefinition], further *)

(** X9. Two calls on the same argument, an object with plain data
    properties, return two objects: they have the same properties and are
    not the same object, and the argument is as it was after both. *)
Theorem createPermissionRuleDefinition_twice (h : heap) (l : loc) (o : props) :
  h !! l = Some o →
  ∃ (l1 l2 : loc) (h1 h2 : heap) (r : props),
    createPermissionRuleDefinition (VObject l) h = Returns (VObject l1) h1 ∧
    createPermissionRuleDefinition (VObject l) h1 = Returns (VObject l2) h2 ∧
    l1 ≠ l2 ∧
    h2 !! l1 = Some r ∧
    h2 !! l2 = Some r ∧
    h2 !! l = Some o.
Proof.
  intros Hl.
  set (l1 := fresh (dom h)). set (h1 := <[l1 := ruleProps o]> h).
  assert (Hl1 : l1 ≠ l) by (apply fresh_ne_allocated; eauto).
  assert (Hl' : h1 !! l = Some o) by (unfold h1; by rewrite lookup_insert_ne).
  assert (Hr1 : h1 !! l1 = Some (ruleProps o)) by apply lookup_insert_eq.
  assert (Hl2 : fresh (dom h1) ≠ l1) by (apply fresh_ne_allocated; eauto).
  assert (Hl2' : fresh (dom h1) ≠ l) by (apply fresh_ne_allocated; eauto).
  exists l1, (fresh (dom h1)), h1, (<[fresh (dom h1) := ruleProps o]> h1), (ruleProps o).
  split; [| split; [| split; [| split; [| split]]]].
  - by apply createPermissionRuleDefinition_eval.
  - by apply createPermissionRuleDefinition_eval.
  - by apply not_eq_sym.
  - by rewrite lookup_insert_ne.
  - apply lookup_insert_eq.
  - by rewrite lookup_insert_ne.
Qed.

Lemma createPermissionRuleDefinition_twice_example :
  exampleStore !! 1%positive = Some exampleInput ∧
  ∃ (l1 l2 : loc) (h1 h2 : heap) (r : props),
    createPermissionRuleDefinition (VObject 1%positive) exampleStore
      = Returns (VObject l1) h1 ∧
    createPermissionRuleDefinition (VObject 1%positive) h1 = Returns (VObject l2) h2 ∧
    l1 ≠ l2 ∧
    h2 !! l1 = Some r ∧
    h2 !! l2 = Some r ∧
    h2 !! 1%positive = Some exampleInput.
Proof.
  split; [reflexivity |].
  apply (createPermissionRuleDefinition_twice exampleStore 1%positive exampleInput).
  reflexivity.
Defined.



